(** * FluidBackground.js: the fluid simulation core, embedded in Rocq

    A shallow embedding of the [Fluid] class of [src/FluidBackground.js]
    (lines 22-345) and of the host call sites that drive it (lines
    505-561).  JavaScript objects created with [new THREE....] live in an
    object heap addressed by handles; object fields that the code has not
    assigned yet are [None] (JavaScript's [undefined]); a property access
    on [undefined] raises [TypeError].  Numbers are rationals: no
    statement below depends on rounding.

    The renderer is the host collaborator: what a draw call computes is
    the method [run_pass] of the class [Host]. *)

From Stdlib Require Import QArith Qminmax.
From stdpp Require Import base option gmap strings list.

Open Scope Q_scope.

(** ** THREE constants *)

Inductive TextureType := FloatType | HalfFloatType.
Inductive Filter := LinearFilter | NearestFilter.
Inductive Wrapping := RepeatWrapping | ClampToEdgeWrapping.
Inductive PixelFormat := RGBAFormat.

(** ** Values held by JavaScript objects *)

Definition handle := nat.

(** The object returned by [createFBO]: [{ texture, target }]. *)
Record FBO := { texture : handle; target : handle }.

(** The object returned by [createDoubleFBO].  [read] and [write] are
    its two data properties; [fbo1] and [fbo2] are the [let] variables of
    the enclosing call, which only the [swap] arrow function can reach. *)
Record DoubleFBO := {
  read : FBO;
  write : FBO;
  fbo1 : FBO;
  fbo2 : FBO;
}.

Record Vector2 := { vx : Q; vy : Q }.
Record Color := { cr : Q; cg : Q; cb : Q }.

(** The [value] slot of a uniform. *)
Inductive UValue :=
| UNull
| UNum (q : Q)
| UVec2 (v : Vector2)
| UTexture (h : handle)
| UNaN.

(** [material.uniforms]: a JavaScript object used as a map from uniform
    names to [{ value }] cells. *)
Abbreviation Uniforms := (gmap string UValue).

(** The stages of the fragment shader's [main], lines 166-204, named by
    the comments that introduce them. *)
Inductive Stage :=
| Advection              (* 171-175 *)
| DyeDissipation         (* 177-178 *)
| VelocityDissipation    (* 180-181 *)
| PressureGradient       (* 183-188: velocity -= deltaT * grad p * pressure *)
| CurlForce              (* 190-196: velocity += deltaT * (T-B, R-L) * curlStrength *)
| Output.                (* 198-203 *)

(** A [THREE.ShaderMaterial]: its uniforms and the stage list of its
    fragment shader.  Materials are heap objects: [this.material] and the
    mesh built from it refer to the same one. *)
Record ShaderMaterial := {
  uniforms : Uniforms;
  mainStages : list Stage;
}.

(** [new THREE.Mesh(geometry, material)], with the plane's two extents. *)
Record Mesh := { geometry : Vector2; meshMaterial : option handle }.

(** The [config] object, lines 22-41. *)
Record Config := {
  SIM_RESOLUTION : Q;
  DYE_RESOLUTION : Q;
  DENSITY_DISSIPATION : Q;
  VELOCITY_DISSIPATION : Q;
  PRESSURE : Q;
  PRESSURE_ITERATIONS : Q;
  CURL : Q;
  SPLAT_RADIUS : Q;
  SPLAT_FORCE : Q;
  SHADING : bool;
  COLORFUL : bool;
  PAUSED : bool;
  BACK_COLOR : Color;
  TRANSPARENT : bool;
  BLOOM : bool;
  BLOOM_THRESHOLD : Q;
  BLOOM_STRENGTH : Q;
  BLOOM_RADIUS : Q;
}.

Definition config : Config := {|
  SIM_RESOLUTION := 128;
  DYE_RESOLUTION := 512;
  DENSITY_DISSIPATION := 0.97;
  VELOCITY_DISSIPATION := 0.99;
  PRESSURE := 0.8;
  PRESSURE_ITERATIONS := 20;
  CURL := 30;
  SPLAT_RADIUS := 0.25;
  SPLAT_FORCE := 6000;
  SHADING := true;
  COLORFUL := true;
  PAUSED := false;
  BACK_COLOR := {| cr := 0; cg := 0; cb := 0 |};
  TRANSPARENT := false;
  BLOOM := true;
  BLOOM_THRESHOLD := 0.3;
  BLOOM_STRENGTH := 1.5;
  BLOOM_RADIUS := 0;
|}.

(** A dat.GUI controller: [gui.add(object, property, min, max, step).name(label)]. *)
Record Controller := {
  property : string;
  range : option (Q * Q * Q);
  label : string;
}.

(** What the user can do with the six controllers of [initGUI]. *)
Inductive GuiEvent :=
| SetDensityDissipation (v : Q)
| SetVelocityDissipation (v : Q)
| SetPressure (v : Q)
| SetCurl (v : Q)
| SetSplatRadius (v : Q)
| SetPaused (b : bool).

(** One [renderer.render(mesh, camera)] call: the render target current
    at the call, the mesh and camera passed, and the mesh's material as
    it is when the call is made. *)
Record Pass := {
  passTarget : option FBO;
  passMesh : option Mesh;
  passCamera : option unit;
  passMaterial : option ShaderMaterial;
}.

(** The host collaborator: the contents of a texture, a zero-filled
    [Float32Array] of a given length, and what one draw call does to the
    contents of the GPU's buffers.  A draw call is taken to return
    normally, whatever mesh, camera and target it is given. *)
Class Host := {
  Pixels : Type;
  Float32Array : Q -> Pixels;
  run_pass : Pass -> gmap handle Pixels -> gmap handle Pixels;
}.

Inductive Error := TypeError.

Inductive Completion (A : Type) :=
| Normal (a : A)
| Throw (e : Error).
Arguments Normal {A} a.
Arguments Throw {A} e.

(** Objects created by [new THREE.DataTexture] and
    [new THREE.WebGLRenderTarget], with the arguments as passed (the
    ninth and tenth arguments of [DataTexture] by position). *)
Inductive Resource `{Host} :=
| DataTexture (data : Pixels) (width height : Q) (format : PixelFormat)
    (type : TextureType) (wrapS wrapT : option Wrapping)
    (arg9 arg10 : Filter) (needsUpdate : bool)
| WebGLRenderTarget (width height : Q) (wrapS wrapT : option Wrapping)
    (minFilter magFilter : Filter) (format : PixelFormat)
    (type : TextureType) (stencilBuffer depthBuffer : bool).

(** The renderer handed to the constructor. *)
Record Renderer := {
  floatGPGPU : bool;             (* renderer.capabilities.floatGPGPU *)
  domElement : Vector2;          (* renderer.domElement.width / height *)
  renderTargetNow : option FBO;  (* the argument of the last setRenderTarget *)
  passes : list Pass;            (* the draw calls made so far, oldest first *)
}.

(** The fields of a [Fluid] instance ([this.renderer] and [this.config]
    are the state's [renderer] and [conf]). *)
Record Fluid := {
  size : option Vector2;
  pointers : option (list unit);
  dye : option DoubleFBO;
  velocity : option DoubleFBO;
  divergence : option FBO;
  curl : option FBO;
  pressure : option DoubleFBO;
  material : option handle;
  renderTarget : option handle;
  mesh : option Mesh;
  camera : option unit;
}.

(** The whole state: the object heap, the GPU's buffers, the shared
    [config] object, the GUI, the renderer and the instance. *)
Record State `{Host} := {
  next : handle;
  objects : gmap handle Resource;
  materials : gmap handle ShaderMaterial;
  names : gmap handle string;
  pixels : gmap handle Pixels;
  conf : Config;
  gui : list Controller;
  renderer : Renderer;
  this : Fluid;
}.

Section Code.
Context `{H : Host}.

(** ** Field updates *)

Definition set_heap (n : handle) (o : gmap handle Resource) (s : State) : State :=
  {| next := n; objects := o; materials := materials s; names := names s;
     pixels := pixels s; conf := conf s; gui := gui s;
     renderer := renderer s; this := this s |}.

Definition set_materials (m : gmap handle ShaderMaterial) (s : State) : State :=
  {| next := next s; objects := objects s; materials := m; names := names s;
     pixels := pixels s; conf := conf s; gui := gui s;
     renderer := renderer s; this := this s |}.

Definition set_names (m : gmap handle string) (s : State) : State :=
  {| next := next s; objects := objects s; materials := materials s; names := m;
     pixels := pixels s; conf := conf s; gui := gui s;
     renderer := renderer s; this := this s |}.

Definition set_pixels (m : gmap handle Pixels) (s : State) : State :=
  {| next := next s; objects := objects s; materials := materials s;
     names := names s; pixels := m; conf := conf s; gui := gui s;
     renderer := renderer s; this := this s |}.

Definition set_conf (c : Config) (s : State) : State :=
  {| next := next s; objects := objects s; materials := materials s;
     names := names s; pixels := pixels s; conf := c; gui := gui s;
     renderer := renderer s; this := this s |}.

Definition set_gui (g : list Controller) (s : State) : State :=
  {| next := next s; objects := objects s; materials := materials s;
     names := names s; pixels := pixels s; conf := conf s; gui := g;
     renderer := renderer s; this := this s |}.

Definition set_renderer (r : Renderer) (s : State) : State :=
  {| next := next s; objects := objects s; materials := materials s;
     names := names s; pixels := pixels s; conf := conf s; gui := gui s;
     renderer := r; this := this s |}.

Definition set_this (f : Fluid) (s : State) : State :=
  {| next := next s; objects := objects s; materials := materials s;
     names := names s; pixels := pixels s; conf := conf s; gui := gui s;
     renderer := renderer s; this := f |}.

Definition set_size (v : option Vector2) (f : Fluid) : Fluid :=
  {| size := v; pointers := pointers f; dye := dye f; velocity := velocity f;
     divergence := divergence f; curl := curl f; pressure := pressure f;
     material := material f; renderTarget := renderTarget f; mesh := mesh f;
     camera := camera f |}.

Definition set_pointers (v : option (list unit)) (f : Fluid) : Fluid :=
  {| size := size f; pointers := v; dye := dye f; velocity := velocity f;
     divergence := divergence f; curl := curl f; pressure := pressure f;
     material := material f; renderTarget := renderTarget f; mesh := mesh f;
     camera := camera f |}.

Definition set_dye (v : option DoubleFBO) (f : Fluid) : Fluid :=
  {| size := size f; pointers := pointers f; dye := v; velocity := velocity f;
     divergence := divergence f; curl := curl f; pressure := pressure f;
     material := material f; renderTarget := renderTarget f; mesh := mesh f;
     camera := camera f |}.

Definition set_velocity (v : option DoubleFBO) (f : Fluid) : Fluid :=
  {| size := size f; pointers := pointers f; dye := dye f; velocity := v;
     divergence := divergence f; curl := curl f; pressure := pressure f;
     material := material f; renderTarget := renderTarget f; mesh := mesh f;
     camera := camera f |}.

Definition set_divergence (v : option FBO) (f : Fluid) : Fluid :=
  {| size := size f; pointers := pointers f; dye := dye f; velocity := velocity f;
     divergence := v; curl := curl f; pressure := pressure f;
     material := material f; renderTarget := renderTarget f; mesh := mesh f;
     camera := camera f |}.

Definition set_curl (v : option FBO) (f : Fluid) : Fluid :=
  {| size := size f; pointers := pointers f; dye := dye f; velocity := velocity f;
     divergence := divergence f; curl := v; pressure := pressure f;
     material := material f; renderTarget := renderTarget f; mesh := mesh f;
     camera := camera f |}.

Definition set_pressure (v : option DoubleFBO) (f : Fluid) : Fluid :=
  {| size := size f; pointers := pointers f; dye := dye f; velocity := velocity f;
     divergence := divergence f; curl := curl f; pressure := v;
     material := material f; renderTarget := renderTarget f; mesh := mesh f;
     camera := camera f |}.

Definition set_material (v : option handle) (f : Fluid) : Fluid :=
  {| size := size f; pointers := pointers f; dye := dye f; velocity := velocity f;
     divergence := divergence f; curl := curl f; pressure := pressure f;
     material := v; renderTarget := renderTarget f; mesh := mesh f;
     camera := camera f |}.

Definition set_renderTarget (v : option handle) (f : Fluid) : Fluid :=
  {| size := size f; pointers := pointers f; dye := dye f; velocity := velocity f;
     divergence := divergence f; curl := curl f; pressure := pressure f;
     material := material f; renderTarget := v; mesh := mesh f;
     camera := camera f |}.

Definition set_mesh (v : option Mesh) (f : Fluid) : Fluid :=
  {| size := size f; pointers := pointers f; dye := dye f; velocity := velocity f;
     divergence := divergence f; curl := curl f; pressure := pressure f;
     material := material f; renderTarget := renderTarget f; mesh := v;
     camera := camera f |}.

(** ** The monad of JavaScript statements

    A statement runs on a state and completes normally with a value or
    abruptly with a thrown error; the state it leaves is kept in both
    cases, so assignments made before a throw stay made. *)

Definition JS (A : Type) : Type := State -> Completion A * State.

#[export] Instance JS_ret : MRet JS := fun A a s => (Normal a, s).

#[export] Instance JS_bind : MBind JS := fun A B f m s =>
  match m s with
  | (Normal a, s') => f a s'
  | (Throw e, s') => (Throw e, s')
  end.

Definition throw {A} (e : Error) : JS A := fun s => (Throw e, s).
Definition get : JS State := fun s => (Normal s, s).
Definition modify (f : State -> State) : JS unit := fun s => (Normal tt, f s).
Definition modify_this (f : Fluid -> Fluid) : JS unit :=
  modify (fun s => set_this (f (this s)) s).

(** Reading a property of [o]: [TypeError] when [o] is [undefined]. *)
Definition the {A} (o : option A) : JS A :=
  match o with
  | Some a => mret a
  | None => throw TypeError
  end.

(** [this.f] followed by a property access. *)
Definition field {A} (f : Fluid -> option A) : JS A :=
  s ← get; the (f (this s)).

(** [new THREE....(...)]: a fresh object on the heap. *)
Definition new (r : Resource) : JS handle := fun s =>
  (Normal (next s), set_heap (S (next s)) (<[next s := r]> (objects s)) s).

Definition new_material (m : ShaderMaterial) : JS handle := fun s =>
  (Normal (next s),
   set_materials (<[next s := m]> (materials s))
     (set_heap (S (next s)) (objects s) s)).

(** ** createFBO and createDoubleFBO (lines 300-345) *)

Definition createFBO (w h : Q) (type : TextureType) (minFilter : Filter)
    (wrap : option Wrapping) : JS FBO :=
  texture ← new (DataTexture (Float32Array (4 * w * h)) w h RGBAFormat type
                   wrap wrap minFilter LinearFilter true);
  target ← new (WebGLRenderTarget w h wrap wrap minFilter LinearFilter
                  RGBAFormat type false false);
  mret {| texture := texture; target := target |}.

(** The function has four parameters; [createFBO] is called with four
    arguments, so its [wrap] is [undefined]. *)
Definition createDoubleFBO (w h : Q) (type : TextureType) (minFilter : Filter)
    : JS DoubleFBO :=
  fbo1 ← createFBO w h type minFilter None;
  fbo2 ← createFBO w h type minFilter None;
  mret {| read := fbo1; write := fbo2; fbo1 := fbo1; fbo2 := fbo2 |}.

(** The [swap] arrow function of lines 339-343: it assigns the two
    variables of the closure, and no property of the object. *)
Definition swap (d : DoubleFBO) : DoubleFBO :=
  let temp := fbo1 d in
  {| read := read d; write := write d; fbo1 := fbo2 d; fbo2 := temp |}.

(** [d.texture] on the object of lines 336-344, whose keys are [read],
    [write] and [swap]: the lookup finds nothing. *)
Definition DoubleFBO_texture (d : DoubleFBO) : option handle := None.

(** ** The renderer *)

Definition setRenderTarget (t : option FBO) : JS unit :=
  modify (fun s =>
    set_renderer {| floatGPGPU := floatGPGPU (renderer s);
                    domElement := domElement (renderer s);
                    renderTargetNow := t;
                    passes := passes (renderer s) |} s).

(** [mesh.material], as the heap has it. *)
Definition material_of (s : State) (m : option Mesh) : option ShaderMaterial :=
  match m with
  | Some m =>
      match meshMaterial m with
      | Some h => materials s !! h
      | None => None
      end
  | None => None
  end.

Definition render (m : option Mesh) (c : option unit) : JS unit :=
  modify (fun s =>
    let p := {| passTarget := renderTargetNow (renderer s);
                passMesh := m;
                passCamera := c;
                passMaterial := material_of s m |} in
    set_pixels (run_pass p (pixels s))
      (set_renderer {| floatGPGPU := floatGPGPU (renderer s);
                       domElement := domElement (renderer s);
                       renderTargetNow := renderTargetNow (renderer s);
                       passes := passes (renderer s) ++ [p] |} s)).

(** [renderer.capabilities.floatGPGPU ? THREE.FloatType : THREE.HalfFloatType] *)
Definition textureType : JS TextureType :=
  s ← get;
  mret (if floatGPGPU (renderer s) then FloatType else HalfFloatType).

(** ** Uniforms of [this.material] *)

(** [this.material.uniforms.<name>]: the cell, or [TypeError] on the way. *)
Definition uniform_cell (name : string) : JS (handle * UValue) :=
  m ← field material;
  s ← get;
  mat ← the (materials s !! m);
  v ← the (uniforms mat !! name);
  mret (m, v).

Definition uniform_read (name : string) : JS UValue :=
  c ← uniform_cell name; mret (snd c).

Definition put_uniform (name : string) (v : UValue) (mat : ShaderMaterial)
    : ShaderMaterial :=
  {| uniforms := <[name := v]> (uniforms mat); mainStages := mainStages mat |}.

(** [this.material.uniforms.<name>.value = v] *)
Definition uniform_write (name : string) (v : UValue) : JS unit :=
  c ← uniform_cell name;
  modify (fun s =>
    set_materials (alter (put_uniform name v) (fst c) (materials s)) s).

(** [value += dt] on a uniform cell: a number where the cell holds a
    number or [null], and not a number where it holds an object. *)
Definition js_add (v : UValue) (dt : Q) : UValue :=
  match v with
  | UNum t => UNum (t + dt)
  | UNull => UNum dt
  | _ => UNaN
  end.

Definition set_name (h : handle) (name : string) : JS unit :=
  modify (fun s => set_names (<[h := name]> (names s)) s).

(** ** The methods of [Fluid] (lines 43-298) *)

Definition createTextures : JS unit :=
  s ← get;
  let SIM_RESOLUTION := SIM_RESOLUTION (conf s) in
  let DYE_RESOLUTION := DYE_RESOLUTION (conf s) in
  type ← textureType;
  d ← createDoubleFBO DYE_RESOLUTION DYE_RESOLUTION type LinearFilter;
  modify_this (set_dye (Some d));;
  v ← createDoubleFBO SIM_RESOLUTION SIM_RESOLUTION type LinearFilter;
  modify_this (set_velocity (Some v));;
  dv ← createFBO SIM_RESOLUTION SIM_RESOLUTION type NearestFilter
         (Some RepeatWrapping);
  modify_this (set_divergence (Some dv));;
  c ← createFBO SIM_RESOLUTION SIM_RESOLUTION type NearestFilter
        (Some RepeatWrapping);
  modify_this (set_curl (Some c));;
  (* the fifth argument, THREE.RepeatWrapping, has no parameter to bind to *)
  p ← createDoubleFBO SIM_RESOLUTION SIM_RESOLUTION type NearestFilter;
  modify_this (set_pressure (Some p));;
  (* lines 103-107 *)
  d ← field dye; t ← the (DoubleFBO_texture d); set_name t "Fluid.dye";;
  v ← field velocity; t ← the (DoubleFBO_texture v); set_name t "Fluid.velocity";;
  dv ← field divergence; set_name (texture dv) "Fluid.divergence";;
  c ← field curl; set_name (texture c) "Fluid.curl";;
  p ← field pressure; t ← the (DoubleFBO_texture p); set_name t "Fluid.pressure".

(** The fragment shader's [main], lines 166-204, stage by stage. *)
Definition fragmentShader_main : list Stage :=
  [Advection; DyeDissipation; VelocityDissipation; PressureGradient;
   CurlForce; Output].

Definition createMaterial : JS unit :=
  sz ← field size;
  s ← get;
  m ← new_material {|
    uniforms := list_to_map [
      ("dyeTexture", UNull);
      ("velocityTexture", UNull);
      ("time", UNum 0);
      ("size", UVec2 {| vx := vx sz; vy := vy sz |});
      ("deltaT", UNum 0);
      ("dissipation", UNum (DENSITY_DISSIPATION (conf s)));
      ("velocityDissipation", UNum (VELOCITY_DISSIPATION (conf s)));
      ("pressure", UNum (PRESSURE (conf s)));
      ("curlStrength", UNum (CURL (conf s)));
      ("splatRadius", UNum (SPLAT_RADIUS (conf s)))
    ];
    mainStages := fragmentShader_main
  |};
  modify_this (set_material (Some m)).

Definition createRenderTarget : JS unit :=
  type ← textureType;
  sz ← field size;
  t ← new (WebGLRenderTarget (vx sz) (vy sz)
             (Some ClampToEdgeWrapping) (Some ClampToEdgeWrapping)
             LinearFilter LinearFilter RGBAFormat type false false);
  modify_this (set_renderTarget (Some t)).

Definition createGeometry : JS unit :=
  let geometry := {| vx := 2; vy := 2 |} in
  s ← get;
  modify_this (set_mesh (Some {| geometry := geometry;
                                 meshMaterial := material (this s) |})).

Definition initGUI : JS unit :=
  modify (fun s => set_gui (gui s ++ [
    {| property := "DENSITY_DISSIPATION"; range := Some (0.9, 1, 0.01);
       label := "dye dissipation" |};
    {| property := "VELOCITY_DISSIPATION"; range := Some (0.9, 1, 0.01);
       label := "velocity dissipation" |};
    {| property := "PRESSURE"; range := Some (0.0, 1, 0.01);
       label := "pressure" |};
    {| property := "CURL"; range := Some (0, 50, 1); label := "curl" |};
    {| property := "SPLAT_RADIUS"; range := Some (0.01, 1, 0.01);
       label := "splat radius" |};
    {| property := "PAUSED"; range := None; label := "paused" |}
  ]) s).

Definition init : JS unit :=
  createTextures;;
  createMaterial;;
  createRenderTarget;;
  createGeometry;;
  initGUI.

(** [this.renderer] and [this.config] are the state's [renderer] and
    [conf]; the constructor's assignments to them change nothing. *)
Definition constructor : JS unit :=
  s ← get;
  modify_this (set_size (Some {| vx := vx (domElement (renderer s));
                                 vy := vy (domElement (renderer s)) |}));;
  modify_this (set_pointers (Some []));;
  init.

(** [this.renderer.render(this.mesh, this.camera)] *)
Definition render_mesh : JS unit :=
  s ← get; render (mesh (this s)) (camera (this s)).

Definition update (dt : Q) : JS unit :=
  s ← get;
  if negb (PAUSED (conf s)) then
    t ← uniform_read "time";
    uniform_write "time" (js_add t dt);;
    uniform_write "deltaT" (UNum dt);;

    d ← field dye;
    setRenderTarget (Some (write d));;
    render_mesh;;
    d ← field dye;
    modify_this (set_dye (Some (swap d)));;

    v ← field velocity;
    setRenderTarget (Some (write v));;
    render_mesh;;
    v ← field velocity;
    modify_this (set_velocity (Some (swap v)));;

    s ← get;
    setRenderTarget (divergence (this s));;
    render_mesh;;

    s ← get;
    setRenderTarget (curl (this s));;
    render_mesh;;

    p ← field pressure;
    setRenderTarget (Some (write p));;
    render_mesh;;
    p ← field pressure;
    modify_this (set_pressure (Some (swap p)));;

    setRenderTarget None
  else mret tt.

Definition splat (x y dx dy : Q) (color : Color) : JS unit :=
  s ← get;
  let SPLAT_FORCE := SPLAT_FORCE (conf s) in
  _ ← field material;

  d ← field dye;
  uniform_write "dyeTexture" (UTexture (texture (read d)));;
  v ← field velocity;
  uniform_write "velocityTexture" (UTexture (texture (read v)));;

  s ← get;
  uniform_write "splatRadius" (UNum (SPLAT_RADIUS (conf s) / 100));;
  sz ← field size;
  uniform_write "splatForce" (UNum (SPLAT_FORCE * Qmax (vx sz) (vy sz)));;
  d ← field dye;
  setRenderTarget (Some (write d));;
  render_mesh;;
  d ← field dye;
  modify_this (set_dye (Some (swap d)));;

  s ← get;
  uniform_write "splatRadius" (UNum (SPLAT_RADIUS (conf s) / 100));;
  sz ← field size;
  uniform_write "splatForce" (UNum (SPLAT_FORCE * Qmax (vx sz) (vy sz)));;
  v ← field velocity;
  setRenderTarget (Some (write v));;
  render_mesh;;
  v ← field velocity;
  modify_this (set_velocity (Some (swap v)));;

  setRenderTarget None.

(** ** The host's call sites *)

(** The names [class Fluid] declares, lines 44-297. *)
Definition Fluid_methods : list string :=
  ["constructor"; "init"; "createTextures"; "createMaterial";
   "createRenderTarget"; "createGeometry"; "initGUI"; "update"; "splat"].

(** The method calls the host makes on [fluidSimRef.current]: line 561,
    line 540, line 531 and line 513. *)
Inductive HostCall :=
| CallUpdate (dt : Q)
| CallSplat (x y dx dy : Q) (color : Color)
| CallCreateRenderTarget
| CallDispose.

Definition method_name (c : HostCall) : string :=
  match c with
  | CallUpdate _ => "update"
  | CallSplat _ _ _ _ _ => "splat"
  | CallCreateRenderTarget => "createRenderTarget"
  | CallDispose => "dispose"
  end.

(** The body the call runs, when the class has one under that name. *)
Definition method_body (c : HostCall) : option (JS unit) :=
  match c with
  | CallUpdate dt => Some (update dt)
  | CallSplat x y dx dy color => Some (splat x y dx dy color)
  | CallCreateRenderTarget => Some createRenderTarget
  | CallDispose => None
  end.

(** [fluidSimRef.current.m(...)]: calling a property that is [undefined]
    raises [TypeError]. *)
Definition host_call (c : HostCall) : JS unit :=
  match method_body c with
  | Some body => body
  | None => throw TypeError
  end.

(** [onWindowResize], lines 529-531: the part that touches the
    simulation.  The camera, the composers and the background material
    of the other lines are the host's own. *)
Definition onWindowResize (width height : Q) : JS unit :=
  sz ← field size;
  modify_this (set_size (Some {| vx := width; vy := vy sz |}));;
  sz ← field size;
  modify_this (set_size (Some {| vx := vx sz; vy := height |}));;
  host_call CallCreateRenderTarget.

(** [onPointerMove], lines 540-546, with the coordinates already
    computed from the event. *)
Definition onPointerMove (x y movementX movementY : Q) : JS unit :=
  host_call (CallSplat x y movementX movementY {| cr := 1; cg := 1; cb := 1 |}).

(** The [useEffect] cleanup, line 513. *)
Definition cleanup : JS unit := host_call CallDispose.

(** A change made through one of the controllers of [initGUI]: dat.GUI
    assigns the bound property of the [config] object. *)
Definition controlled (e : GuiEvent) : string :=
  match e with
  | SetDensityDissipation _ => "DENSITY_DISSIPATION"
  | SetVelocityDissipation _ => "VELOCITY_DISSIPATION"
  | SetPressure _ => "PRESSURE"
  | SetCurl _ => "CURL"
  | SetSplatRadius _ => "SPLAT_RADIUS"
  | SetPaused _ => "PAUSED"
  end.

Definition with_controls (c : Config) (dd vd pr cu sr : Q) (pa : bool) : Config :=
  {| SIM_RESOLUTION := SIM_RESOLUTION c;
     DYE_RESOLUTION := DYE_RESOLUTION c;
     DENSITY_DISSIPATION := dd;
     VELOCITY_DISSIPATION := vd;
     PRESSURE := pr;
     PRESSURE_ITERATIONS := PRESSURE_ITERATIONS c;
     CURL := cu;
     SPLAT_RADIUS := sr;
     SPLAT_FORCE := SPLAT_FORCE c;
     SHADING := SHADING c;
     COLORFUL := COLORFUL c;
     PAUSED := pa;
     BACK_COLOR := BACK_COLOR c;
     TRANSPARENT := TRANSPARENT c;
     BLOOM := BLOOM c;
     BLOOM_THRESHOLD := BLOOM_THRESHOLD c;
     BLOOM_STRENGTH := BLOOM_STRENGTH c;
     BLOOM_RADIUS := BLOOM_RADIUS c |}.

Definition assign (e : GuiEvent) (c : Config) : Config :=
  let dd := DENSITY_DISSIPATION c in
  let vd := VELOCITY_DISSIPATION c in
  let pr := PRESSURE c in
  let cu := CURL c in
  let sr := SPLAT_RADIUS c in
  let pa := PAUSED c in
  match e with
  | SetDensityDissipation v => with_controls c v vd pr cu sr pa
  | SetVelocityDissipation v => with_controls c dd v pr cu sr pa
  | SetPressure v => with_controls c dd vd v cu sr pa
  | SetCurl v => with_controls c dd vd pr v sr pa
  | SetSplatRadius v => with_controls c dd vd pr cu v pa
  | SetPaused b => with_controls c dd vd pr cu sr b
  end.

Definition gui_apply (e : GuiEvent) (s : State) : State :=
  if bool_decide (controlled e ∈ property <$> gui s)
  then set_conf (assign e (conf s)) s
  else s.

(** The state in which [new Fluid(renderer)] starts: nothing allocated, the
    [config] literal, an object with no field assigned. *)
Definition initial (r : Renderer) : State :=
  {| next := 0%nat; objects := ∅; materials := ∅; names := ∅; pixels := ∅;
     conf := config; gui := [];
     renderer := r;
     this := {| size := None; pointers := None; dye := None;
                velocity := None; divergence := None; curl := None;
                pressure := None; material := None; renderTarget := None;
                mesh := None; camera := None |} |}.

(** The instance with every field the constructor's steps assign: the
    state [constructor] leaves when it raises at line 103, followed by
    the steps of [init] that come after [createTextures]. *)
Definition assembled (r : Renderer) : State :=
  snd ((createMaterial;; createRenderTarget;; createGeometry;; initGUI)
         (snd (constructor (initial r)))).

(** ** Observations *)

(** The draw calls a statement adds to those of [s]. *)
Definition new_passes (c : JS unit) (s : State) : list Pass :=
  drop (length (passes (renderer s))) (passes (renderer (snd (c s)))).

Definition uniform_of (p : Pass) (name : string) : option UValue :=
  match passMaterial p with
  | Some m => uniforms m !! name
  | None => None
  end.

(** The textures bound to the uniforms of a draw call. *)
Definition inputs (p : Pass) : list handle :=
  match passMaterial p with
  | Some m => omap (fun v => match v with UTexture h => Some h | _ => None end)
                (snd <$> map_to_list (uniforms m))
  | None => []
  end.

(** The buffers of the five fields. *)
Definition both (d : option DoubleFBO) : list FBO :=
  match d with
  | Some d => [read d; write d]
  | None => []
  end.

Definition field_buffers (f : Fluid) : list FBO :=
  both (dye f) ++ both (velocity f) ++ option_list (divergence f) ++
  option_list (curl f) ++ both (pressure f).

Definition extent (r : Resource) : Q * Q :=
  match r with
  | DataTexture _ w h _ _ _ _ _ _ _ => (w, h)
  | WebGLRenderTarget w h _ _ _ _ _ _ _ _ => (w, h)
  end.

(** ** The resize contract, in the words of the specification *)

(** Resize as §8 describes it: every field buffer has the extent just
    asked for. *)
Definition sized_to (w h : Q) (s : State) : Prop :=
  ∀ f, f ∈ field_buffers (this s) →
    extent <$> objects s !! texture f = Some (w, h) ∧
    extent <$> objects s !! target f = Some (w, h).

(** [PRESSURE_ITERATIONS], which no controller of [initGUI] is bound to,
    set by hand. *)
Definition with_iterations (n : Q) (c : Config) : Config :=
  {| SIM_RESOLUTION := SIM_RESOLUTION c;
     DYE_RESOLUTION := DYE_RESOLUTION c;
     DENSITY_DISSIPATION := DENSITY_DISSIPATION c;
     VELOCITY_DISSIPATION := VELOCITY_DISSIPATION c;
     PRESSURE := PRESSURE c;
     PRESSURE_ITERATIONS := n;
     CURL := CURL c;
     SPLAT_RADIUS := SPLAT_RADIUS c;
     SPLAT_FORCE := SPLAT_FORCE c;
     SHADING := SHADING c;
     COLORFUL := COLORFUL c;
     PAUSED := PAUSED c;
     BACK_COLOR := BACK_COLOR c;
     TRANSPARENT := TRANSPARENT c;
     BLOOM := BLOOM c;
     BLOOM_THRESHOLD := BLOOM_THRESHOLD c;
     BLOOM_STRENGTH := BLOOM_STRENGTH c;
     BLOOM_RADIUS := BLOOM_RADIUS c |}.

End Code.

(** ** A host to run the code on

    Its buffer contents are the number of draw calls made into them. *)

Definition counting_host : Host := {|
  Pixels := nat;
  Float32Array := fun _ => 0%nat;
  run_pass := fun p m =>
    match passTarget p with
    | Some f => <[target f := S (default 0%nat (m !! target f))]> m
    | None => m
    end;
|}.

(** The renderer of line 359, as [new Fluid(renderer)] finds it: nothing
    drawn yet. *)
Definition fresh_renderer (float : bool) (width height : Q) : Renderer :=
  {| floatGPGPU := float; domElement := {| vx := width; vy := height |};
     renderTargetNow := None; passes := [] |}.

(** An 800 x 600 canvas, without float textures. *)
Definition canvas : Renderer := fresh_renderer false 800 600.

Definition fluid0 : @State counting_host := assembled canvas.

(** The same instance after the user has ticked "paused". *)
Definition paused0 : @State counting_host := gui_apply (SetPaused true) fluid0.

(** Whether the draw call [q] has [f] as its render target. *)
Definition draws_into (f : FBO) (q : Pass) : bool :=
  match passTarget q with
  | Some g => Nat.eqb (texture f) (texture g) && Nat.eqb (target f) (target g)
  | None => false
  end.

(** The draw calls of a step into the pressure write buffer. *)
Definition pressure_passes `{Host} (s : State) (ps : list Pass) : list Pass :=
  match pressure (this s) with
  | Some p => List.filter (draws_into (write p)) ps
  | None => []
  end.

(** The values held by [fluid0] that the statements below refer to. *)
Definition dye0 : DoubleFBO :=
  let a := {| texture := 0%nat; target := 1%nat |} in
  let b := {| texture := 2%nat; target := 3%nat |} in
  {| read := a; write := b; fbo1 := a; fbo2 := b |}.

Definition velocity0 : DoubleFBO :=
  let a := {| texture := 4%nat; target := 5%nat |} in
  let b := {| texture := 6%nat; target := 7%nat |} in
  {| read := a; write := b; fbo1 := a; fbo2 := b |}.

Definition pressure0 : DoubleFBO :=
  let a := {| texture := 12%nat; target := 13%nat |} in
  let b := {| texture := 14%nat; target := 15%nat |} in
  {| read := a; write := b; fbo1 := a; fbo2 := b |}.

Definition material0 : ShaderMaterial :=
  default {| uniforms := ∅; mainStages := [] |} (materials fluid0 !! 16%nat).

(** ** The host's events *)

Section Events.
Context `{H : Host}.

(** The uniform [name] of [this.material], as the heap has it. *)
Definition this_uniform (s : State) (name : string) : option UValue :=
  match material (this s) with
  | Some m =>
      match materials s !! m with
      | Some mat => uniforms mat !! name
      | None => None
      end
  | None => None
  end.



(** What the browser delivers to the component: an animation frame
    (line 561, with [dt] computed from the clock), a pointer move (lines
    536-547), a window resize (lines 518-534), the unmount (lines
    505-514), and a change made in the GUI panel. *)
Inductive Event :=
| Frame (dt : Q)
| PointerMove (x y movementX movementY : Q)
| Resize (width height : Q)
| Unmount
| Slider (e : GuiEvent).

(** One callback.  An error it raises goes to the browser; the state it
    leaves is the one the next callback finds. *)
Definition dispatch (s : State) (e : Event) : State :=
  match e with
  | Frame dt => snd (host_call (CallUpdate dt) s)
  | PointerMove x y mx my => snd (onPointerMove x y mx my s)
  | Resize w h => snd (onWindowResize w h s)
  | Unmount => snd (cleanup s)
  | Slider e => gui_apply e s
  end.

Definition run (es : list Event) (s : State) : State := foldl dispatch s es.

(** The buffers that the draw calls of the class are aimed at. *)
Definition write_side (f : Fluid) : list FBO :=
  option_list (write <$> dye f) ++ option_list (write <$> velocity f) ++
  option_list (divergence f) ++ option_list (curl f) ++
  option_list (write <$> pressure f).

(** A host that draws into its render target and nowhere else. *)
Definition draws_in_place : Prop :=
  ∀ p m h,
    (∀ f, passTarget p = Some f → h ≠ texture f ∧ h ≠ target f) →
    run_pass p m !! h = m !! h.

(** The contents of the buffers after the draw calls [ps], made in
    order. *)
Definition drawn (ps : list Pass) (m : gmap handle Pixels)
    : gmap handle Pixels :=
  foldl (λ m p, run_pass p m) m ps.

(** Which buffer each name of the instance leads to. *)
Definition roles (f : Fluid) :=
  (read <$> dye f, write <$> dye f,
   read <$> velocity f, write <$> velocity f,
   divergence f, curl f,
   read <$> pressure f, write <$> pressure f).

(** How callbacks may change the state: the field buffers and their
    roles stay, the heap only grows, and the draw calls added, which
    account for the buffers' contents, are aimed at the write side. *)
Definition evolves (s s' : State) : Prop :=
  roles (this s') = roles (this s) ∧
  field_buffers (this s') = field_buffers (this s) ∧
  write_side (this s') = write_side (this s) ∧
  (next s ≤ next s')%nat ∧
  (∀ h, (h < next s)%nat → objects s' !! h = objects s !! h) ∧
  ∃ ps,
    passes (renderer s') = passes (renderer s) ++ ps ∧
    pixels s' = drawn ps (pixels s) ∧
    Forall (λ p, ∀ f, passTarget p = Some f → f ∈ write_side (this s)) ps.

(** The buffer whose texture and target are the objects at [n] and
    [n + 1], and the heap once [createFBO] has put them there. *)
Definition fbo_at (n : handle) : FBO := {| texture := n; target := S n |}.

Definition with_fbo (n : handle) (w h : Q) (type : TextureType)
    (minFilter : Filter) (wrap : option Wrapping)
    (o : gmap handle Resource) : gmap handle Resource :=
  <[S n := WebGLRenderTarget w h wrap wrap minFilter LinearFilter RGBAFormat
             type false false]>
    (<[n := DataTexture (Float32Array (4 * w * h)) w h RGBAFormat type
              wrap wrap minFilter LinearFilter true]> o).

(** The double buffer over the four objects from [n] on. *)
Definition double_at (n : handle) : DoubleFBO :=
  {| read := fbo_at n; write := fbo_at (S (S n));
     fbo1 := fbo_at n; fbo2 := fbo_at (S (S n)) |}.

(** The wrap modes an object was created with. *)
Definition wrap_of (r : Resource) : option Wrapping * option Wrapping :=
  match r with
  | DataTexture _ _ _ _ _ wrapS wrapT _ _ _ => (wrapS, wrapT)
  | WebGLRenderTarget _ _ wrapS wrapT _ _ _ _ _ _ => (wrapS, wrapT)
  end.




End Events.

(** A frame, a pointer move, a resize and another frame. *)
Definition session : list Event :=
  [Frame 0.016; PointerMove 0 0 1 1; Resize 1024 768; Frame 0.016].


(** * Properties *)

Section Properties.
Context `{H : Host}.

(** ** Running the monad *)

Lemma bind_normal {A B} (m : JS A) (f : A → JS B) (s s' : State) (a : A) :
  m s = (Normal a, s') → (m ≫= f) s = f a s'.
Proof. intros E. unfold mbind, JS_bind. rewrite E. reflexivity. Qed.

Lemma run_field {A} (f : Fluid → option A) (s : State) (a : A) :
  f (this s) = Some a → field f s = (Normal a, s).
Proof. intros E. unfold field, mbind, JS_bind, get. rewrite E. reflexivity. Qed.

Lemma run_uniform_cell (name : string) (s : State) m mat v :
  material (this s) = Some m → materials s !! m = Some mat →
  uniforms mat !! name = Some v →
  uniform_cell name s = (Normal (m, v), s).
Proof.
  intros Hm Hmat Hv. unfold uniform_cell.
  rewrite (bind_normal _ _ s s m) by (apply run_field; exact Hm).
  unfold mbind, JS_bind, get. rewrite Hmat. cbn. rewrite Hv. reflexivity.
Qed.

Lemma run_uniform_write (name : string) (v : UValue) (s : State) m mat v0 :
  material (this s) = Some m → materials s !! m = Some mat →
  uniforms mat !! name = Some v0 →
  uniform_write name v s =
    (Normal tt, set_materials (<[m := put_uniform name v mat]> (materials s)) s).
Proof.
  intros Hm Hmat Hv. unfold uniform_write.
  rewrite (bind_normal _ _ s s (m, v0)) by (eapply run_uniform_cell; eauto).
  unfold modify. cbn. f_equal. f_equal.
  apply map_eq. intros i. destruct (decide (m = i)) as [->|Hne].
  - rewrite lookup_alter_eq, lookup_insert_eq, Hmat. reflexivity.
  - rewrite lookup_alter_ne, lookup_insert_ne by done. reflexivity.
Qed.

Ltac state_simpl :=
  cbn [next objects materials names pixels conf gui renderer this
       set_heap set_materials set_names set_pixels set_conf set_gui
       set_renderer set_this
       size pointers dye velocity divergence curl pressure material
       renderTarget mesh camera
       set_size set_pointers set_dye set_velocity set_divergence set_curl
       set_pressure set_material set_renderTarget set_mesh
       floatGPGPU domElement renderTargetNow passes
       passTarget passMesh passCamera passMaterial fst snd].

(** ** The constructor *)

(** [new Fluid(renderer)] raises: line 103 reads [this.dye.texture], which
    is [undefined], and assigns its [name].  The five buffers are
    assigned by then. *)
Lemma constructor_throws (r : Renderer) :
  fst (constructor (initial r)) = Throw TypeError ∧
  is_Some (dye (this (snd (constructor (initial r))))) ∧
  is_Some (pressure (this (snd (constructor (initial r))))).
Proof. vm_compute. repeat split; eexists; reflexivity. Qed.

(** [class Fluid] has a body for a call exactly when it declares the
    name. *)
Lemma method_body_declared (c : HostCall) :
  is_Some (method_body c) ↔ method_name c ∈ Fluid_methods.
Proof.
  destruct c; cbn [method_body method_name]; split; intros Hc.
  1, 3, 5: apply (bool_decide_unpack _); vm_compute; exact I.
  1, 2, 3: eexists; reflexivity.
  - destruct Hc as [? Hc]. discriminate Hc.
  - apply (bool_decide_pack _) in Hc. vm_compute in Hc. destruct Hc.
Qed.

(** ** Double buffers *)

Lemma swap_keeps_properties (d : DoubleFBO) :
  read (swap d) = read d ∧ write (swap d) = write d.
Proof. split; reflexivity. Qed.

Lemma swap_exchanges_variables (d : DoubleFBO) :
  fbo1 (swap d) = fbo2 d ∧ fbo2 (swap d) = fbo1 d.
Proof. split; reflexivity. Qed.

(** C1, evaluated on the code.  On every double buffer that
    [createDoubleFBO] returns, [swap] leaves the [read] and [write]
    properties as they were: the two buffers are distinct, and after
    [swap] the [read] property is still the buffer it was, not the one
    that [write] held.  The claim asks for the exchange. *)
Theorem createDoubleFBO_swap_keeps_properties
    (w h : Q) (ty : TextureType) (f : Filter) (s : State) :
  match createDoubleFBO w h ty f s with
  | (Normal d, _) =>
      read d ≠ write d ∧
      read (swap d) = read d ∧ write (swap d) = write d ∧
      read (swap d) ≠ write d
  | (Throw _, _) => False
  end.
Proof.
  cbn. repeat split; intros E; injection E; lia.
Qed.

(** ** The step *)

(** C2.  With the pause flag set, [update] completes normally and leaves
    the whole state as it was: no draw call is added to the renderer's,
    and the contents of every buffer, the heap and the instance are
    unchanged, for every [dt]. *)
Theorem update_paused (dt : Q) (s : State) :
  PAUSED (conf s) = true →
  update dt s = (Normal tt, s) ∧
  new_passes (update dt) s = [] ∧
  pixels (snd (update dt s)) = pixels s.
Proof.
  intros Hp.
  assert (E : update dt s = (Normal tt, s)).
  { unfold update, mbind, JS_bind, get. rewrite Hp. reflexivity. }
  unfold new_passes. rewrite E. cbn [snd].
  repeat split. apply drop_all.
Qed.

(** Of the [config] object, [update] reads [PAUSED] and nothing else:
    with any other configuration that agrees on the flag it completes
    alike and leaves the same state, the configuration apart. *)
Lemma update_reads_only_PAUSED (dt : Q) (c : Config) (s : State) :
  PAUSED c = PAUSED (conf s) →
  update dt (set_conf c s) =
    (fst (update dt s), set_conf c (snd (update dt s))).
Proof.
  intros Hc.
  unfold update, uniform_read, uniform_write, uniform_cell, field,
    modify_this, setRenderTarget, render_mesh, render, material_of, the,
    get, modify, throw, mbind, JS_bind, mret, JS_ret.
  state_simpl. rewrite Hc.
  destruct (PAUSED (conf s)); cbn [negb]; [reflexivity|].
  repeat (state_simpl;
    match goal with
    | |- context [match ?x with Some _ => _ | None => _ end] =>
        destruct x
    end).
  all: state_simpl; reflexivity.
Qed.

(** So no slider other than "paused" changes what the next step draws,
    and neither does [PRESSURE_ITERATIONS]. *)
Lemma update_ignores_sliders (dt : Q) (e : GuiEvent) (s : State) :
  (∀ b, e ≠ SetPaused b) →
  new_passes (update dt) (gui_apply e s) = new_passes (update dt) s.
Proof.
  intros He. unfold gui_apply. case_bool_decide; [|reflexivity].
  unfold new_passes. rewrite update_reads_only_PAUSED.
  - reflexivity.
  - destruct e; try reflexivity. destruct (He b). reflexivity.
Qed.

Lemma update_ignores_iterations (dt n : Q) (s : State) :
  new_passes (update dt) (set_conf (with_iterations n (conf s)) s) =
  new_passes (update dt) s.
Proof.
  unfold new_passes. rewrite update_reads_only_PAUSED; reflexivity.
Qed.

(** An unpaused step on an instance whose buffers, material and mesh are
    in place makes five draw calls, all of the one mesh with the one
    material as the step's two uniform writes ([time], [deltaT]) leave
    it, into the dye write buffer, the velocity write buffer, the
    divergence buffer, the curl buffer and the pressure write buffer, in
    that order; the render target is then reset, and [swap] has been
    applied to dye, velocity and pressure. *)
Lemma update_unpaused (dt : Q) (s : State) d v p m g mat t0 dT0 :
  PAUSED (conf s) = false →
  dye (this s) = Some d → velocity (this s) = Some v →
  pressure (this s) = Some p →
  material (this s) = Some m →
  mesh (this s) = Some {| geometry := g; meshMaterial := Some m |} →
  materials s !! m = Some mat →
  uniforms mat !! "time" = Some t0 → uniforms mat !! "deltaT" = Some dT0 →
  ∃ s',
    update dt s = (Normal tt, s') ∧
    new_passes (update dt) s =
      (λ t, {| passTarget := t; passMesh := mesh (this s);
               passCamera := camera (this s);
               passMaterial :=
                 Some (put_uniform "deltaT" (UNum dt)
                         (put_uniform "time" (js_add t0 dt) mat)) |}) <$>
      [Some (write d); Some (write v); divergence (this s); curl (this s);
       Some (write p)] ∧
    renderTargetNow (renderer s') = None ∧
    dye (this s') = Some (swap d) ∧ velocity (this s') = Some (swap v) ∧
    pressure (this s') = Some (swap p).
Proof.
  intros Hp Hd Hv Hpr Hm Hmesh Hmat Ht HdT.
  set (mat1 := put_uniform "time" (js_add t0 dt) mat).
  set (mat2 := put_uniform "deltaT" (UNum dt) mat1).
  set (draw := λ t, {| passTarget := t; passMesh := mesh (this s);
                       passCamera := camera (this s);
                       passMaterial := Some mat2 |}).
  set (targets := [Some (write d); Some (write v); divergence (this s);
                   curl (this s); Some (write p)]).
  assert (HdT1 : uniforms mat1 !! "deltaT" = Some dT0).
  { unfold mat1, put_uniform. cbn [uniforms].
    rewrite lookup_insert_ne by done. exact HdT. }
  assert (Hrun : ∃ s', update dt s = (Normal tt, s') ∧
     passes (renderer s') = passes (renderer s) ++ (draw <$> targets) ∧
     renderTargetNow (renderer s') = None ∧
     dye (this s') = Some (swap d) ∧ velocity (this s') = Some (swap v) ∧
     pressure (this s') = Some (swap p)).
  { unfold update.
    rewrite (bind_normal get _ s s s) by reflexivity.
    rewrite Hp. cbn [negb].
    unfold uniform_read.
    rewrite (bind_normal (uniform_cell "time" ≫= _) _ s s t0).
    2:{ rewrite (bind_normal _ _ s s (m, t0))
          by (eapply run_uniform_cell; eauto).
        reflexivity. }
    erewrite bind_normal by (eapply run_uniform_write; eauto).
    erewrite bind_normal.
    2:{ eapply run_uniform_write with (mat := mat1); state_simpl; eauto.
        apply lookup_insert_eq. }
    unfold field, modify_this, setRenderTarget, render_mesh, render,
      material_of, the, get, modify, mbind, JS_bind, mret, JS_ret.
    state_simpl.
    repeat (first [rewrite Hd | rewrite Hv | rewrite Hpr]; state_simpl).
    rewrite Hmesh. cbn [meshMaterial].
    rewrite !lookup_insert_eq.
    eexists. split; [reflexivity|]. state_simpl.
    rewrite <- !app_assoc. cbn [app].
    unfold targets, draw. cbn [fmap list_fmap]. rewrite Hmesh.
    repeat split; reflexivity. }
  destruct Hrun as (s' & Hrun & Hpasses & Hrest).
  assert (Hnew : new_passes (update dt) s = draw <$> targets).
  { unfold new_passes. rewrite Hrun. cbn [snd]. rewrite Hpasses.
    apply drop_app_length. }
  exists s'. split; [exact Hrun|]. split; [exact Hnew|]. exact Hrest.
Qed.

(** C3, evaluated on the code.  An unpaused step of the assembled
    instance completes after five draw calls, where the claim has seven
    passes.  Their render targets are, in order, the dye write buffer,
    the velocity write buffer, the divergence buffer, the curl buffer and
    the pressure write buffer: the divergence buffer is drawn before the
    curl buffer, which is another buffer, and the draw into the pressure
    buffer is the last, with no draw into velocity after it.  All five
    are made with one and the same material, whose [dyeTexture] and
    [velocityTexture] uniforms are still the [null] of [createMaterial]:
    no texture is bound to any uniform of any of the five, so none of
    them reads what the one before it drew.  The claim asks for the curl
    computation and the vorticity force before the divergence
    computation, for a pressure-gradient subtraction after the pressure
    solve, and for each pass to read the output of the preceding one. *)
Theorem update_draw_order (float : bool) (w h dt : Q) :
  let s := assembled (fresh_renderer float w h) in
  let ps := new_passes (update dt) s in
  PAUSED (conf s) = false ∧
  fst (update dt s) = Normal tt ∧
  passTarget <$> ps =
    [write <$> dye (this s); write <$> velocity (this s);
     divergence (this s); curl (this s); write <$> pressure (this s)] ∧
  Forall is_Some (passTarget <$> ps) ∧
  divergence (this s) ≠ curl (this s) ∧
  is_Some (head ps ≫= passMaterial) ∧
  passMaterial <$> ps = replicate 5 (head ps ≫= passMaterial) ∧
  (λ p, uniform_of p "dyeTexture") <$> ps = replicate 5 (Some UNull) ∧
  (λ p, uniform_of p "velocityTexture") <$> ps = replicate 5 (Some UNull) ∧
  inputs <$> ps = replicate 5 [].
Proof.
  intros s ps.
  split; [vm_compute; reflexivity|].
  split; [vm_compute; reflexivity|].
  split; [vm_compute; reflexivity|].
  split; [vm_compute; repeat constructor; eexists; reflexivity|].
  split; [vm_compute; intros E; discriminate E|].
  split; [vm_compute; eexists; reflexivity|].
  split; [vm_compute; reflexivity|].
  split; [vm_compute; reflexivity|].
  split; vm_compute; reflexivity.
Qed.

(** C4, evaluated on the code.  Whatever [PRESSURE_ITERATIONS] holds (20
    in the [config] literal), an unpaused step of the assembled instance
    makes one draw call into the pressure write buffer, and five draw
    calls in all.  The claim asks for [PRESSURE_ITERATIONS] of them. *)
Theorem update_draws_pressure_once (float : bool) (w h n dt : Q) :
  let r := fresh_renderer float w h in
  let s := set_conf (with_iterations n (conf (assembled r))) (assembled r) in
  PRESSURE_ITERATIONS (conf (assembled r)) = 20 ∧
  PRESSURE_ITERATIONS (conf s) = n ∧
  fst (update dt s) = Normal tt ∧
  length (pressure_passes s (new_passes (update dt) s)) = 1%nat ∧
  length (new_passes (update dt) s) = 5%nat.
Proof. vm_compute. repeat split. Qed.

(** C6, evaluated on the code.  After the user has moved the "dye
    dissipation" slider to [v], the [config] object holds [v], and every
    draw call of the next step still has the [dissipation] uniform at
    0.97, the value [createMaterial] copied.  The claim asks for [v]. *)
Theorem update_keeps_dissipation_uniform (float : bool) (w h v dt : Q) :
  let r := fresh_renderer float w h in
  let s := gui_apply (SetDensityDissipation v) (assembled r) in
  DENSITY_DISSIPATION (conf s) = v ∧
  fst (update dt s) = Normal tt ∧
  (λ p, uniform_of p "dissipation") <$> new_passes (update dt) s =
    replicate 5 (Some (UNum 0.97)).
Proof. vm_compute. repeat split. Qed.

(** C5, evaluated on the code.  On the assembled instance every call of
    [splat] raises [TypeError]: [createMaterial] declares no [splatForce]
    uniform, and line 283 assigns [uniforms.splatForce.value].  No draw
    call is made and no double buffer is touched.  The claim asks for a
    normal completion after two draw calls and two swaps. *)
Theorem splat_throws (float : bool) (w h x y dx dy : Q) (color : Color) :
  let r := fresh_renderer float w h in
  fst (splat x y dx dy color (assembled r)) = Throw TypeError ∧
  new_passes (splat x y dx dy color) (assembled r) = [] ∧
  this (snd (splat x y dx dy color (assembled r))) = this (assembled r) ∧
  pixels (snd (splat x y dx dy color (assembled r))) = pixels (assembled r).
Proof. vm_compute. repeat split. Qed.

(** More generally, [splat] raises on every state whose material has no
    [splatForce] uniform, whatever else the state holds, and draws
    nothing. *)
Lemma splat_throws_without_splatForce
    (x y dx dy : Q) (color : Color) (s : State) m mat :
  material (this s) = Some m → materials s !! m = Some mat →
  uniforms mat !! "splatForce" = None →
  fst (splat x y dx dy color s) = Throw TypeError ∧
  passes (renderer (snd (splat x y dx dy color s))) = passes (renderer s) ∧
  pixels (snd (splat x y dx dy color s)) = pixels s.
Proof.
  intros Hm Hmat Hsf.
  unfold splat, uniform_write, uniform_cell, field, modify_this,
    setRenderTarget, render_mesh, render, material_of, the, get, modify,
    throw, mbind, JS_bind, mret, JS_ret.
  repeat (state_simpl; cbn [fmap option_fmap option_map put_uniform uniforms];
    first
      [ rewrite Hm | rewrite Hmat | rewrite Hsf
      | rewrite lookup_alter_eq
      | rewrite lookup_insert_ne by done
      | match goal with
        | |- context [match dye (this s) with _ => _ end] =>
            destruct (dye (this s))
        | |- context [match velocity (this s) with _ => _ end] =>
            destruct (velocity (this s))
        | |- context [match size (this s) with _ => _ end] =>
            destruct (size (this s))
        | |- context [match uniforms mat !! ?n with _ => _ end] =>
            destruct (uniforms mat !! n)
        end ]).
  all: done.
Qed.

(** The pointer handler ends the same way. *)
Lemma onPointerMove_throws (float : bool) (w h x y mx my : Q) :
  fst (onPointerMove x y mx my (assembled (fresh_renderer float w h))) =
    Throw TypeError.
Proof. vm_compute. reflexivity. Qed.

(** C7, evaluated on the code.  [class Fluid] declares no [dispose]: the
    call of line 513 raises [TypeError] and leaves the state, the heap
    included, as it was; the [update] that follows completes normally
    with its five draw calls.  The claim asks for the buffers to be
    released and for the later call to be reported. *)
Theorem cleanup_throws (float : bool) (w h dt : Q) :
  let r := fresh_renderer float w h in
  method_body CallDispose = None ∧
  cleanup (assembled r) = (Throw TypeError, assembled r) ∧
  fst (update dt (snd (cleanup (assembled r)))) = Normal tt ∧
  length (new_passes (update dt) (snd (cleanup (assembled r)))) = 5%nat.
Proof. vm_compute. repeat split. Qed.

(** C10.  From one state, two calls of [splat] with any two argument
    lists complete alike and leave the same state: fields, uniforms, draw
    calls and buffer contents; so do two pointer events, whatever their
    positions and movements.  The body of [splat] names none of its
    parameters. *)
Theorem splat_ignores_arguments
    (x1 y1 dx1 dy1 : Q) (c1 : Color) (x2 y2 dx2 dy2 : Q) (c2 : Color)
    (s : State) :
  splat x1 y1 dx1 dy1 c1 s = splat x2 y2 dx2 dy2 c2 s ∧
  onPointerMove x1 y1 dx1 dy1 s = onPointerMove x2 y2 dx2 dy2 s.
Proof.
  split.
  - unfold splat. reflexivity.
  - unfold onPointerMove, host_call, method_body, splat. reflexivity.
Qed.

(** ** Resize *)

(** C8, as amended.  Two resizes in a row, on an instance whose [size]
    is set, complete normally; the instance's [size] is then the second
    pair, and its [renderTarget] is a render target allocated by the
    second resize with that extent.  The field buffers are the ones the
    instance had, and every object allocated before the resizes is as it
    was. *)
Theorem resize_twice (w1 h1 w2 h2 : Q) (s : State) :
  is_Some (size (this s)) →
  ∃ s',
    (onWindowResize w1 h1;; onWindowResize w2 h2) s = (Normal tt, s') ∧
    size (this s') = Some {| vx := w2; vy := h2 |} ∧
    renderTarget (this s') = Some (S (next s)) ∧
    extent <$> objects s' !! S (next s) = Some (w2, h2) ∧
    field_buffers (this s') = field_buffers (this s) ∧
    ∀ h, (h < next s)%nat → objects s' !! h = objects s !! h.
Proof.
  intros [sz Hsz].
  unfold onWindowResize, host_call, method_body, createRenderTarget,
    textureType, new, field, modify_this, the, get, modify, mbind, JS_bind,
    mret, JS_ret.
  state_simpl. rewrite Hsz. state_simpl.
  eexists. split; [reflexivity|]. state_simpl.
  split; [reflexivity|]. split; [reflexivity|].
  split; [rewrite lookup_insert_eq; reflexivity|].
  split; [reflexivity|].
  intros h Hh. rewrite !lookup_insert_ne by lia. reflexivity.
Qed.

(** * More of the code *)

Ltac js_unfold :=
  unfold update, splat, onWindowResize, onPointerMove, cleanup, host_call,
    method_body, createRenderTarget, textureType, uniform_read,
    uniform_write, uniform_cell, new, field, modify_this, setRenderTarget,
    render_mesh, render, material_of, the, get, modify, throw, mbind,
    JS_bind, mret, JS_ret.

Ltac js_step :=
  state_simpl;
  cbn [fmap option_fmap option_map put_uniform uniforms mainStages negb
       meshMaterial geometry];
  first
    [ match goal with
      | E : ?x = Some _ |- context [?x] => rewrite E
      | E : ?x = None |- context [?x] => rewrite E
      | E : ?x = true |- context [?x] => rewrite E
      | E : ?x = false |- context [?x] => rewrite E
      end
    | rewrite lookup_alter_eq
    | rewrite lookup_insert_eq
    | rewrite lookup_insert_ne by done ].



(** ** More on the step *)


Ltac js_split :=
  match goal with
  | |- context [match ?x with Some _ => _ | None => _ end] =>
      lazymatch x with
      | Some _ => fail
      | None => fail
      | mesh _ => fail
      | _ => destruct x eqn:?
      end
  | |- context [if ?x then _ else _] =>
      lazymatch x with
      | true => fail
      | false => fail
      | _ => destruct x eqn:?
      end
  end.

Ltac js_auto :=
  js_unfold; repeat first [js_step | state_simpl; js_split]; state_simpl.

Lemma evolves_refl (s : State) : evolves s s.
Proof.
  repeat split; auto.
  exists []. repeat split; [symmetry; apply app_nil_r | constructor].
Qed.

Lemma evolves_trans (s1 s2 s3 : State) :
  evolves s1 s2 → evolves s2 s3 → evolves s1 s3.
Proof.
  intros (Hr1 & Hf1 & Hw1 & Hn1 & Ho1 & ps1 & Hp1 & Hx1 & Ht1)
         (Hr2 & Hf2 & Hw2 & Hn2 & Ho2 & ps2 & Hp2 & Hx2 & Ht2).
  repeat split.
  - congruence.
  - congruence.
  - congruence.
  - lia.
  - intros h Hh. rewrite Ho2 by lia. apply Ho1, Hh.
  - exists (ps1 ++ ps2). repeat split.
    + rewrite Hp2, Hp1, app_assoc. reflexivity.
    + rewrite Hx2, Hx1. unfold drawn. rewrite foldl_app. reflexivity.
    + apply Forall_app. split; [exact Ht1|]. rewrite <- Hw1. exact Ht2.
Qed.

Ltac aimed :=
  cbn [app]; repeat (apply Forall_cons; split); try solve [constructor];
  intros ? Haim; cbn [passTarget] in Haim;
  unfold write_side; repeat js_step; state_simpl;
  first [ injection Haim as <- | rewrite Haim | idtac ];
  cbn [fmap option_fmap option_map option_list]; set_solver.

Ltac evolves_tac :=
  unfold evolves, roles, field_buffers, write_side, both; repeat js_step;
  state_simpl; cbn [swap read write];
  split; [reflexivity|]; split; [reflexivity|]; split; [reflexivity|];
  split; [lia|];
  split; [intros ? ?; reflexivity|];
  rewrite <- ?app_assoc;
  eexists; split; [first [reflexivity | symmetry; apply app_nil_r]|];
  split; [reflexivity|]; aimed.

Lemma update_evolves (dt : Q) (s : State) : evolves s (snd (update dt s)).
Proof.
  js_auto.
  all: evolves_tac.
Qed.


Lemma splat_evolves (x y dx dy : Q) (color : Color) (s : State) :
  evolves s (snd (splat x y dx dy color s)).
Proof.
  js_auto.
  all: evolves_tac.
Qed.

Lemma onWindowResize_evolves (w h : Q) (s : State) :
  evolves s (snd (onWindowResize w h s)).
Proof.
  js_auto.
  all: unfold evolves, roles, field_buffers, write_side, both; state_simpl.
  all: split; [reflexivity|]; split; [reflexivity|]; split; [reflexivity|].
  all: split; [lia|].
  all: split; [intros ? ?; rewrite ?lookup_insert_ne by lia; reflexivity|].
  all: exists []; repeat split; [symmetry; apply app_nil_r | constructor].
Qed.

Lemma dispatch_evolves (e : Event) (s : State) : evolves s (dispatch s e).
Proof.
  destruct e; cbn [dispatch].
  - apply update_evolves.
  - apply splat_evolves.
  - apply onWindowResize_evolves.
  - apply evolves_refl.
  - unfold gui_apply. case_bool_decide; [|apply evolves_refl].
    repeat split; auto.
    exists []. repeat split; [symmetry; apply app_nil_r | constructor].
Qed.

Lemma run_evolves (es : list Event) (s : State) : evolves s (run es s).
Proof.
  revert s. induction es as [|e es IH]; intros s; cbn [run foldl].
  - apply evolves_refl.
  - eapply evolves_trans; [apply dispatch_evolves | apply IH].
Qed.

(** ** Whatever the host delivers *)

(** X2.  Through any sequence of frames, pointer moves, resizes, GUI
    changes and unmounts, every name of the instance keeps leading to the
    buffer it led to: [read] and [write] of the three double buffers,
    [divergence] and [curl]. *)
Theorem run_keeps_roles (es : list Event) (s : State) :
  roles (this (run es s)) = roles (this s) ∧
  field_buffers (this (run es s)) = field_buffers (this s).
Proof.
  destruct (run_evolves es s) as (Hr & Hf & _). split; assumption.
Qed.



Lemma drawn_elsewhere (ps : list Pass) (m : gmap handle Pixels) (h : handle) :
  draws_in_place →
  Forall (λ p, ∀ f, passTarget p = Some f → h ≠ texture f ∧ h ≠ target f) ps →
  drawn ps m !! h = m !! h.
Proof.
  intros Hd Hps. revert m.
  induction Hps as [|p ps Hp _ IH]; intros m; [reflexivity|].
  unfold drawn in *. cbn [foldl]. rewrite IH. apply Hd, Hp.
Qed.

(** X5.  With a host that draws into its render target and nowhere else,
    a buffer that is not on the write side keeps its contents through
    any sequence of events. *)
Theorem run_keeps_other_pixels (es : list Event) (s : State) (h : handle) :
  draws_in_place →
  Forall (λ f, h ≠ texture f ∧ h ≠ target f) (write_side (this s)) →
  pixels (run es s) !! h = pixels s !! h.
Proof.
  intros Hd Hh.
  destruct (run_evolves es s) as (_ & _ & _ & _ & _ & ps & _ & Hx & Ht).
  rewrite Hx. apply drawn_elsewhere; [exact Hd|].
  eapply Forall_impl; [exact Ht|].
  intros p Hp f Hf. rewrite Forall_forall in Hh. apply Hh, Hp, Hf.
Qed.



(** X6.  Of the uniforms of the material, a step writes [time] and
    [deltaT] and no other: whatever the state, and whether the step
    completes or raises, every other uniform is as it was.  The step
    binds no input texture. *)
Theorem update_writes_only_time_and_deltaT
    (dt : Q) (s : State) (name : string) :
  name ≠ "time" → name ≠ "deltaT" →
  this_uniform (snd (update dt s)) name = this_uniform s name.
Proof.
  intros H1 H2. js_auto.
  all: unfold this_uniform; repeat js_step; state_simpl; reflexivity.
Qed.





(** ** More on [splat] *)



Lemma bind_throw {A B} (m : JS A) (f : A → JS B) (s s' : State) (e : Error) :
  m s = (Throw e, s') → (m ≫= f) s = (Throw e, s').
Proof. intros E. unfold mbind, JS_bind. rewrite E. reflexivity. Qed.

Lemma run_field_undefined {A} (f : Fluid → option A) (s : State) :
  f (this s) = None → field f s = (Throw TypeError, s).
Proof. intros E. unfold field, mbind, JS_bind, get. rewrite E. reflexivity. Qed.

Lemma run_uniform_write_undeclared
    (name : string) (v : UValue) (s : State) m mat :
  material (this s) = Some m → materials s !! m = Some mat →
  uniforms mat !! name = None →
  uniform_write name v s = (Throw TypeError, s).
Proof.
  intros Hm Hmat Hv.
  unfold uniform_write, uniform_cell, field, the, get, mbind, JS_bind.
  rewrite Hm. cbn. rewrite Hmat. cbn. rewrite Hv. reflexivity.
Qed.

Ltac run_step :=
  first
    [ erewrite bind_normal by (apply run_field; state_simpl; eassumption)
    | erewrite bind_normal by
        (eapply run_uniform_write; state_simpl;
         [ eassumption
         | first [apply lookup_insert_eq | eassumption]
         | cbn [put_uniform uniforms]; rewrite ?lookup_insert_ne by done;
           first [apply lookup_insert_eq | eassumption] ])
    | erewrite bind_normal by reflexivity ];
  state_simpl.

Ltac run_throw :=
  first
    [ erewrite bind_throw by (apply run_field_undefined; state_simpl; eassumption)
    | erewrite bind_throw by
        (eapply run_uniform_write_undeclared; state_simpl;
         [ eassumption
         | first [apply lookup_insert_eq | eassumption]
         | cbn [put_uniform uniforms]; rewrite ?lookup_insert_ne by done;
           eassumption ]) ];
  state_simpl.

(** X10.  Whether it then completes or raises, [splat] first binds the
    read-side textures of dye and velocity to [dyeTexture] and
    [velocityTexture] and sets [splatRadius] to a hundredth of the
    [SPLAT_RADIUS] the [config] object holds at the call. *)
Theorem splat_binds_before_raising
    (x y dx dy : Q) (color : Color) (s : State) d v m mat u1 u2 u3 :
  dye (this s) = Some d → velocity (this s) = Some v →
  material (this s) = Some m → materials s !! m = Some mat →
  uniforms mat !! "dyeTexture" = Some u1 →
  uniforms mat !! "velocityTexture" = Some u2 →
  uniforms mat !! "splatRadius" = Some u3 →
  let s' := snd (splat x y dx dy color s) in
  this_uniform s' "dyeTexture" = Some (UTexture (texture (read d))) ∧
  this_uniform s' "velocityTexture" = Some (UTexture (texture (read v))) ∧
  this_uniform s' "splatRadius" = Some (UNum (SPLAT_RADIUS (conf s) / 100)).
Proof.
  intros Hd Hv Hm Hmat H1 H2 H3. cbn zeta. unfold splat.
  destruct (size (this s)) as [sz|] eqn:Hsz;
    [destruct (uniforms mat !! "splatForce") as [u4|] eqn:H4|].
  all: repeat run_step; try run_throw.
  all: unfold this_uniform, setRenderTarget, modify; state_simpl.
  all: rewrite Hm, lookup_insert_eq; cbn [put_uniform uniforms].
  all: repeat first [rewrite lookup_insert_eq
                    | rewrite lookup_insert_ne by done].
  all: repeat split; reflexivity.
Qed.


(** ** More on construction *)

Lemma createFBO_run (w h : Q) (ty : TextureType) (mf : Filter)
    (wr : option Wrapping) (s : State) :
  createFBO w h ty mf wr s =
    (Normal (fbo_at (next s)),
     set_heap (S (S (next s))) (with_fbo (next s) w h ty mf wr (objects s)) s).
Proof. reflexivity. Qed.

Lemma createDoubleFBO_run (w h : Q) (ty : TextureType) (mf : Filter)
    (s : State) :
  createDoubleFBO w h ty mf s =
    (Normal (double_at (next s)),
     set_heap (S (S (S (S (next s)))))
       (with_fbo (S (S (next s))) w h ty mf None
          (with_fbo (next s) w h ty mf None (objects s))) s).
Proof. reflexivity. Qed.

Lemma with_fbo_texture n w h ty mf wr (o : gmap handle Resource) :
  with_fbo n w h ty mf wr o !! n =
    Some (DataTexture (Float32Array (4 * w * h)) w h RGBAFormat ty wr wr mf
            LinearFilter true).
Proof.
  unfold with_fbo. rewrite lookup_insert_ne by lia. apply lookup_insert_eq.
Qed.

Lemma with_fbo_target n w h ty mf wr (o : gmap handle Resource) :
  with_fbo n w h ty mf wr o !! S n =
    Some (WebGLRenderTarget w h wr wr mf LinearFilter RGBAFormat ty false
            false).
Proof. unfold with_fbo. apply lookup_insert_eq. Qed.

Lemma with_fbo_other n w h ty mf wr (o : gmap handle Resource) (i : handle) :
  i ≠ n → i ≠ S n → with_fbo n w h ty mf wr o !! i = o !! i.
Proof.
  intros H1 H2. unfold with_fbo. rewrite !lookup_insert_ne by lia.
  reflexivity.
Qed.

(** The state [createTextures] leaves. *)
Lemma createTextures_run (s : State) :
  let n := next s in
  let ty := if floatGPGPU (renderer s) then FloatType else HalfFloatType in
  let dye_res := DYE_RESOLUTION (conf s) in
  let sim_res := SIM_RESOLUTION (conf s) in
  createTextures s =
    (Throw TypeError,
     set_this
       (set_pressure (Some (double_at (12 + n)%nat))
          (set_curl (Some (fbo_at (10 + n)%nat))
             (set_divergence (Some (fbo_at (8 + n)%nat))
                (set_velocity (Some (double_at (4 + n)%nat))
                   (set_dye (Some (double_at n)) (this s))))))
       (set_heap (16 + n)%nat
          (with_fbo (14 + n)%nat sim_res sim_res ty NearestFilter None
          (with_fbo (12 + n)%nat sim_res sim_res ty NearestFilter None
          (with_fbo (10 + n)%nat sim_res sim_res ty NearestFilter
             (Some RepeatWrapping)
          (with_fbo (8 + n)%nat sim_res sim_res ty NearestFilter
             (Some RepeatWrapping)
          (with_fbo (6 + n)%nat sim_res sim_res ty LinearFilter None
          (with_fbo (4 + n)%nat sim_res sim_res ty LinearFilter None
          (with_fbo (2 + n)%nat dye_res dye_res ty LinearFilter None
          (with_fbo n dye_res dye_res ty LinearFilter None
             (objects s))))))))) s)).
Proof.
  cbn zeta. unfold createTextures.
  rewrite (bind_normal get _ s s s) by reflexivity.
  erewrite bind_normal by reflexivity.
  erewrite bind_normal by apply createDoubleFBO_run.
  erewrite bind_normal by reflexivity. state_simpl.
  erewrite bind_normal by apply createDoubleFBO_run.
  erewrite bind_normal by reflexivity. state_simpl.
  erewrite bind_normal by apply createFBO_run.
  erewrite bind_normal by reflexivity. state_simpl.
  erewrite bind_normal by apply createFBO_run.
  erewrite bind_normal by reflexivity. state_simpl.
  erewrite bind_normal by apply createDoubleFBO_run.
  erewrite bind_normal by reflexivity. state_simpl.
  reflexivity.
Qed.

Ltac fbo_lookup :=
  cbn [texture target fbo_at double_at read write Nat.add];
  repeat (rewrite with_fbo_other by lia);
  first [rewrite with_fbo_texture | rewrite with_fbo_target].


(** X13.  The double buffers are created without a wrap mode, pressure
    included: [createDoubleFBO] has no fifth parameter for the
    [THREE.RepeatWrapping] that line 100 passes, and hands [createFBO] no
    [wrap].  The divergence and curl buffers get [RepeatWrapping]. *)
Theorem createTextures_wrap_modes (s : State) :
  let s' := snd (createTextures s) in
  Forall (λ f, wrap_of <$> objects s' !! texture f = Some (None, None) ∧
               wrap_of <$> objects s' !! target f = Some (None, None))
    (both (dye (this s')) ++ both (velocity (this s')) ++
     both (pressure (this s'))) ∧
  Forall (λ f, wrap_of <$> objects s' !! texture f =
                 Some (Some RepeatWrapping, Some RepeatWrapping) ∧
               wrap_of <$> objects s' !! target f =
                 Some (Some RepeatWrapping, Some RepeatWrapping))
    (option_list (divergence (this s')) ++ option_list (curl (this s'))).
Proof.
  cbn zeta. pose proof (createTextures_run s) as E. cbn zeta in E.
  rewrite E. clear E. state_simpl.
  unfold both. cbn [option_list app read write double_at].
  split.
  - repeat (apply Forall_cons; split); try solve [constructor].
    all: split; fbo_lookup; reflexivity.
  - repeat (apply Forall_cons; split); try solve [constructor].
    all: split; fbo_lookup; reflexivity.
Qed.

Lemma init_run (s : State) :
  init s = (Throw TypeError, snd (createTextures s)).
Proof.
  unfold init. unfold mbind at 1, JS_bind at 1.
  pose proof (createTextures_run s) as E. cbn zeta in E. rewrite E.
  reflexivity.
Qed.

Lemma constructor_run (s : State) :
  constructor s =
    (Throw TypeError,
     snd (createTextures
            (set_this
               (set_pointers (Some [])
                  (set_size
                     (Some {| vx := vx (domElement (renderer s));
                              vy := vy (domElement (renderer s)) |})
                     (this s))) s))).
Proof.
  unfold constructor.
  rewrite (bind_normal get _ s s s) by reflexivity.
  erewrite bind_normal by reflexivity.
  erewrite bind_normal by reflexivity.
  rewrite init_run. reflexivity.
Qed.

(** X14.  On every state the constructor raises [TypeError] out of
    [createTextures], with [size] and [pointers] set: [createMaterial],
    [createRenderTarget], [createGeometry] and [initGUI] are never
    reached, so the material, the render target, the mesh, the materials
    on the heap and the GUI are as they were. *)
Theorem constructor_stops_at_createTextures (s : State) :
  let s' := snd (constructor s) in
  fst (constructor s) = Throw TypeError ∧
  fst (init s) = Throw TypeError ∧
  size (this s') = Some {| vx := vx (domElement (renderer s));
                           vy := vy (domElement (renderer s)) |} ∧
  pointers (this s') = Some [] ∧
  material (this s') = material (this s) ∧
  renderTarget (this s') = renderTarget (this s) ∧
  mesh (this s') = mesh (this s) ∧
  materials s' = materials s ∧
  gui s' = gui s.
Proof.
  cbn zeta.
  pose proof (init_run s) as Ei.
  pose proof (createTextures_run s) as E. cbn zeta in E.
  rewrite E in Ei. clear E. rewrite Ei. clear Ei.
  pose proof (constructor_run s) as Ec.
  match type of Ec with
  | context [createTextures ?s0] =>
      pose proof (createTextures_run s0) as E; cbn zeta in E;
      rewrite E in Ec; clear E
  end.
  rewrite Ec. clear Ec.
  state_simpl. repeat split; reflexivity.
Qed.

(** ** More on resizing *)

(** X15.  A resize sets [this.size] and leaves the material alone: every
    uniform, [size] among them, keeps the value it had, so the shader
    goes on with the canvas size read at construction. *)
Theorem onWindowResize_leaves_uniforms (w h : Q) (s : State) :
  is_Some (size (this s)) →
  let s' := snd (onWindowResize w h s) in
  size (this s') = Some {| vx := w; vy := h |} ∧
  ∀ name, this_uniform s' name = this_uniform s name.
Proof.
  intros [sz Hsz]. cbn zeta. js_auto.
  all: split; [reflexivity|]; intros name; unfold this_uniform; state_simpl;
    reflexivity.
Qed.




(** ** More on what events cannot do *)

Ltac declared_tac :=
  unfold this_uniform; repeat js_step; state_simpl;
  cbn [fmap option_fmap option_map put_uniform uniforms];
  rewrite ?lookup_insert_is_Some';
  first
    [ reflexivity
    | split;
      [ intros Hx;
        repeat (destruct Hx as [<-|Hx]; [eexists; eassumption|]);
        exact Hx
      | intros Hx; repeat right; exact Hx ] ].

Lemma dispatch_declares_nothing (e : Event) (s : State) (name : string) :
  is_Some (this_uniform (dispatch s e) name) ↔ is_Some (this_uniform s name).
Proof.
  destruct e; cbn [dispatch]; unfold onPointerMove, cleanup, host_call;
    cbn [method_body].
  - js_auto. all: declared_tac.
  - js_auto. all: declared_tac.
  - js_auto. all: declared_tac.
  - js_auto. all: declared_tac.
  - unfold gui_apply. case_bool_decide; reflexivity.
Qed.

(** X18.  No sequence of events declares a uniform or removes one: the
    material has a uniform of a given name after the events exactly when
    it had it before.  An instance whose material lacks [splatForce]
    never gets it. *)
Theorem run_declares_nothing (es : list Event) (s : State) (name : string) :
  is_Some (this_uniform (run es s) name) ↔ is_Some (this_uniform s name).
Proof.
  revert s. induction es as [|e es IH]; intros s; cbn [run foldl].
  - reflexivity.
  - fold (run es (dispatch s e)). rewrite IH.
    apply dispatch_declares_nothing.
Qed.



End Properties.

(** * The code on [fluid0] *)

#[local] Existing Instance counting_host.

Lemma update_paused_witness :
  PAUSED (conf paused0) = true ∧
  update 0.016 paused0 = (Normal tt, paused0) ∧
  new_passes (update 0.016) paused0 = [] ∧
  pixels (snd (update 0.016 paused0)) = pixels paused0.
Proof.
  assert (Hp : PAUSED (conf paused0) = true) by (vm_compute; reflexivity).
  split; [exact Hp | exact (update_paused 0.016 paused0 Hp)].
Defined.

Lemma resize_twice_witness :
  is_Some (size (this fluid0)) ∧
  ∃ s' : State,
    (onWindowResize 800 600;; onWindowResize 1024 768) fluid0 = (Normal tt, s') ∧
    size (this s') = Some {| vx := 1024; vy := 768 |} ∧
    renderTarget (this s') = Some (S (next fluid0)) ∧
    extent <$> objects s' !! S (next fluid0) = Some (1024, 768) ∧
    field_buffers (this s') = field_buffers (this fluid0) ∧
    ∀ h, (h < next fluid0)%nat → objects s' !! h = objects fluid0 !! h.
Proof.
  assert (Hs : is_Some (size (this fluid0))).
  { exists {| vx := 800; vy := 600 |}. vm_compute. reflexivity. }
  split; [exact Hs | exact (resize_twice 800 600 1024 768 fluid0 Hs)].
Defined.

(** A second step draws into the buffers the first one drew into. *)
Lemma update_twice_same_targets :
  passTarget <$> new_passes (update 0.016) (snd (update 0.016 fluid0)) =
  passTarget <$> new_passes (update 0.016) fluid0.
Proof. vm_compute. reflexivity. Qed.

(** C8, as stated, fails on [fluid0]: after resizes to 800 x 600 and to
    1024 x 768 the dye read buffer has the extent 512 x 512 that
    [DYE_RESOLUTION] gave it. *)
Lemma resize_keeps_field_extents :
  ¬ sized_to 1024 768
      (snd ((onWindowResize 800 600;; onWindowResize 1024 768) fluid0)).
Proof.
  intros Hs. destruct (Hs (read dye0)) as [E _].
  - vm_compute. left.
  - vm_compute in E. discriminate E.
Qed.

(** * More of the code, on [fluid0] *)

Lemma counting_host_draws_in_place : draws_in_place.
Proof.
  intros p m h Hh. cbn. destruct (passTarget p) as [f|]; [|reflexivity].
  destruct (Hh f eq_refl) as [_ Hne]. apply lookup_insert_ne. congruence.
Qed.

Lemma fluid0_fields :
  PAUSED (conf fluid0) = false ∧
  dye (this fluid0) = Some dye0 ∧ velocity (this fluid0) = Some velocity0 ∧
  pressure (this fluid0) = Some pressure0 ∧
  material (this fluid0) = Some 16%nat ∧
  materials fluid0 !! 16%nat = Some material0 ∧
  uniforms material0 !! "time" = Some (UNum 0) ∧
  uniforms material0 !! "deltaT" = Some (UNum 0) ∧
  uniforms material0 !! "dyeTexture" = Some UNull ∧
  uniforms material0 !! "velocityTexture" = Some UNull ∧
  uniforms material0 !! "splatRadius" = Some (UNum 0.25).
Proof. vm_compute. repeat split. Qed.

Lemma run_keeps_other_pixels_witness :
  pixels (run session fluid0) !! target (read dye0) =
  pixels fluid0 !! target (read dye0).
Proof.
  apply run_keeps_other_pixels.
  - exact counting_host_draws_in_place.
  - vm_compute. repeat constructor; discriminate.
Defined.



Lemma update_writes_only_time_and_deltaT_witness :
  this_uniform (snd (update 0.016 fluid0)) "dissipation" =
  this_uniform fluid0 "dissipation".
Proof.
  apply update_writes_only_time_and_deltaT; discriminate.
Defined.



Lemma splat_binds_before_raising_witness :
  this_uniform (snd (splat 0 0 1 1 {| cr := 1; cg := 1; cb := 1 |} fluid0))
    "dyeTexture" = Some (UTexture (texture (read dye0))).
Proof.
  destruct fluid0_fields
    as (_ & Hd & Hv & _ & Hm & Hmat & _ & _ & H1 & H2 & H3).
  exact (proj1
    (splat_binds_before_raising 0 0 1 1 {| cr := 1; cg := 1; cb := 1 |}
       fluid0 dye0 velocity0 16%nat material0 UNull UNull (UNum 0.25)
       Hd Hv Hm Hmat H1 H2 H3)).
Defined.



Lemma fluid0_size : is_Some (size (this fluid0)).
Proof. exists {| vx := 800; vy := 600 |}. vm_compute. reflexivity. Qed.

Lemma onWindowResize_leaves_uniforms_witness :
  size (this (snd (onWindowResize 1024 768 fluid0))) =
    Some {| vx := 1024; vy := 768 |} ∧
  this_uniform (snd (onWindowResize 1024 768 fluid0)) "size" =
    Some (UVec2 {| vx := 800; vy := 600 |}).
Proof.
  destruct (onWindowResize_leaves_uniforms 1024 768 fluid0 fluid0_size)
    as [Hs Hu].
  split; [exact Hs|]. rewrite Hu. vm_compute. reflexivity.
Defined.



